(** * Power-triangle simulation: a shallow embedding of [power-triangle.py]

    The program is one Tk form: two validated entry fields (active power
    and power factor) and [update_plot], which computes the power triangle
    (P, Q, S, angle) from the two fields and redraws the plot and the
    reference panel.

    The arithmetic of [update_plot] is written once, over an interface
    [Arith] of the numeric operations the source uses, and read in two
    ways:

    - [Exact]: real numbers extended with a not-a-number value, the
      arithmetic the specification reasons in ("real >= 0", "real in
      [0, 1]");
    - [Binary64]: IEEE 754 double precision ([spec_float] at precision 53),
      the arithmetic Python runs, with the two libm functions behind
      [np.arccos] and [np.tan] left as parameters.

    The validators work on strings and on the binary64 value that
    Python's [float()] returns for them.

    The exact reading has no rounding and no overflow.  Where the two
    readings part (a power factor so small that [arccos] rounds to the
    double nearest pi/2, a quotient that overflows) the statements below
    say which reading they are about. *)

From Stdlib Require Import Reals Lra ZArith Bool List String Ascii.
From Stdlib Require Import SpecFloat.
Import ListNotations.

(* ================================================================= *)
(** ** Python exceptions as an error monad *)

Module Py.

Inductive exn : Set :=
| ValueError
| ZeroDivisionError.

Inductive result (A : Type) : Type :=
| Ok (a : A)
| Raise (e : exn).

Arguments Ok {A} a.
Arguments Raise {A} e.

Definition bind {A B : Type} (m : result A) (k : A -> result B) : result B :=
  match m with
  | Ok a => k a
  | Raise e => Raise e
  end.

(** [try: ... except ValueError: ...] *)
Definition except_ValueError {A : Type} (m : result A) (handler : result A)
  : result A :=
  match m with
  | Raise ValueError => handler
  | _ => m
  end.

End Py.

Import Py.

Declare Scope py_scope.
Delimit Scope py_scope with py.
Notation "x <- m ;; k" := (bind m (fun x => k))
  (at level 61, m at next level, right associativity) : py_scope.
Open Scope py_scope.

(* ================================================================= *)
(** ** The numeric operations [update_plot] uses *)

(** A number system as Python and NumPy present it to the program: integer
    and decimal literals, the constant [np.pi], the comparisons [==] and
    [>], [*], the machine division under Python's [/], and the two NumPy
    functions. *)
Record Arith : Type := {
  num :> Type;
  of_int : Z -> num;                 (* an integer literal *)
  of_decimal : Z -> Z -> num;        (* [of_decimal m e]: the literal m * 10^e *)
  np_pi : num;
  num_eqb : num -> num -> bool;      (* x == y *)
  num_gtb : num -> num -> bool;      (* x > y *)
  num_is_finite : num -> bool;       (* neither an infinity nor NaN *)
  mul : num -> num -> num;           (* x * y *)
  div : num -> num -> num;           (* x / y once y is known not to be zero *)
  np_arccos : num -> num;
  np_tan : num -> num
}.

Section Program.

Variable N : Arith.

(** Python's [x / y] on floats: [ZeroDivisionError] when [y == 0],
    otherwise the quotient. *)
Definition py_truediv (x y : N) : result N :=
  if num_eqb N y (of_int N 0) then Raise ZeroDivisionError
  else Ok (div N x y).

(** [np.degrees(x)] is [x * (180 / pi)]. *)
Definition np_degrees (x : N) : N :=
  mul N x (div N (of_int N 180) (np_pi N)).

(** [max(a, b, c)]: the first argument, replaced by each later one that
    compares greater. *)
Definition py_max3 (a b c : N) : N :=
  let m := if num_gtb N b a then b else a in
  if num_gtb N c m then c else m.

(** The values of the locals [P], [Q], [S] and [angle] after the branch
    of [update_plot]. *)
Record triangle : Type := {
  tri_P : N;
  tri_Q : N;
  tri_S : N;
  tri_angle : N
}.

(** Lines 76-84 of [update_plot]: the branch on [pf == 0]. *)
Definition compute (P_input pf : N) : result triangle :=
  if num_eqb N pf (of_int N 0) then
    let P := of_int N 0 in
    let Q := P_input in
    let S := P_input in
    angle <- py_truediv (np_pi N) (of_int N 2) ;;
    Ok {| tri_P := P; tri_Q := Q; tri_S := S; tri_angle := angle |}
  else
    let P := P_input in
    let angle := np_arccos N pf in
    let Q := mul N P (np_tan N angle) in
    S <- py_truediv P pf ;;
    Ok {| tri_P := P; tri_Q := Q; tri_S := S; tri_angle := angle |}.

(** What [update_plot] leaves on the screen.  An artist of the axes is
    an arrow or the angle arc; a row of the reference frame is a caption
    and a number shown by [f"{value:.2f}{suffix}"].  The constant
    decorations (axis labels, title, grid, aspect, the explanatory
    paragraph) carry no data and are left out. *)
Inductive artist : Type :=
| Arrow (x y dx dy head_width head_length : N) (color : string)
| Arc (width height theta1 theta2 : N) (color : string).

Record axes : Type := {
  xlim : N * N;
  ylim : N * N;
  artists : list artist
}.

Record ref_row : Type := {
  caption : string;
  value : N;
  suffix : string
}.

(** The object [self]: the two Tk variables behind the entry fields,
    the axes and the reference frame. *)
Record PowerTriangleSimulation : Type := {
  active_power : N;
  power_factor : N;
  ax : axes;
  ref_frame : list ref_row
}.

(** [ax.set_xlim(left, right)] and [ax.set_ylim(bottom, top)]: Matplotlib
    raises [ValueError] ("Axis limits cannot be NaN or Inf") unless both
    numbers are finite. *)
Definition set_lim (low high : N) : result (N * N) :=
  if num_is_finite N low && num_is_finite N high then Ok (low, high)
  else Raise ValueError.

(** [Arc((0, 0), width, height, theta1=..., theta2=..., color=...)]:
    Matplotlib cannot build the path of an arc between angles that are
    not finite and raises [ValueError]. *)
Definition make_arc (width height theta1 theta2 : N) (color : string)
  : result artist :=
  if num_is_finite N theta1 && num_is_finite N theta2
  then Ok (Arc width height theta1 theta2 color)
  else Raise ValueError.

(** Lines 86-100: [ax.clear()], the limits, the three arrows, the arc. *)
Definition draw (t : triangle) : result axes :=
  let P := tri_P t in
  let Q := tri_Q t in
  let S := tri_S t in
  let zero := of_int N 0 in
  let max_value := py_max3 P Q S in
  xl <- set_lim zero (mul N max_value (of_decimal N 12 (-1))) ;;
  yl <- set_lim zero (mul N max_value (of_decimal N 12 (-1))) ;;
  let head := mul N max_value (of_decimal N 2 (-2)) in
  let angle_radius := mul N max_value (of_decimal N 2 (-1)) in
  arc <- make_arc (mul N angle_radius (of_int N 2))
                  (mul N angle_radius (of_int N 2))
                  zero (np_degrees (tri_angle t)) "k" ;;
  Ok {| xlim := xl;
        ylim := yl;
        artists :=
          [ Arrow zero zero P zero head head "r";
            Arrow zero zero P Q head head "b";
            Arrow P zero zero Q head head "g";
            arc ] |}.

(** Lines 113-129: the old rows are destroyed and five new ones made. *)
Definition references (t : triangle) (pf : N) : list ref_row :=
  [ {| caption := "🔴 Active Power (P):"; value := tri_P t; suffix := " kW" |};
    {| caption := "🔵 Apparent Power (S):"; value := tri_S t; suffix := " kVA" |};
    {| caption := "🟢 Reactive Power (Q):"; value := tri_Q t; suffix := " kVAr" |};
    {| caption := "Power Factor:"; value := pf; suffix := "" |};
    {| caption := "Angle φ:"; value := np_degrees (tri_angle t); suffix := "°" |} ].

(** [update_plot(self)]: read the two variables, compute, redraw.  The
    variables are read, never written.  The two fields of the record are
    the numbers [self.active_power.get()] and [self.power_factor.get()]
    return; a field whose text is not a number (an empty one) makes
    [get()] raise [TclError] before anything is computed, a state this
    record does not describe.  When Matplotlib raises, the exception
    leaves [update_plot] before the reference frame is touched; the
    result then is the exception alone. *)
Definition update_plot (self : PowerTriangleSimulation)
  : result PowerTriangleSimulation :=
  let P_input := active_power self in
  let pf := power_factor self in
  t <- compute P_input pf ;;
  a <- draw t ;;
  Ok {| active_power := active_power self;
        power_factor := power_factor self;
        ax := a;
        ref_frame := references t pf |}.

(** [create_widgets(self)]: the variables start at 100 and 0.8, the axes
    are new (limits 0 to 1, nothing drawn) and the reference frame is
    empty. *)
Definition create_widgets : PowerTriangleSimulation :=
  {| active_power := of_int N 100;
     power_factor := of_decimal N 8 (-1);
     ax := {| xlim := (of_int N 0, of_int N 1);
              ylim := (of_int N 0, of_int N 1);
              artists := [] |};
     ref_frame := [] |}.

(** [__init__(self, master)] *)
Definition init : result PowerTriangleSimulation :=
  update_plot create_widgets.

End Program.

Arguments active_power {N} p.
Arguments power_factor {N} p.
Arguments ax {N} p.
Arguments ref_frame {N} p.
Arguments update_plot {N} self.

Arguments tri_P {N} t.
Arguments tri_Q {N} t.
Arguments tri_S {N} t.
Arguments tri_angle {N} t.

(* ================================================================= *)
(** ** Exact arithmetic: real numbers with a not-a-number value *)

Inductive xreal : Type :=
| Real (r : R)
| NaN.

Definition xr_eqb (x y : xreal) : bool :=
  match x, y with
  | Real a, Real b => if Req_dec_T a b then true else false
  | _, _ => false
  end.

Definition xr_gtb (x y : xreal) : bool :=
  match x, y with
  | Real a, Real b => if Rlt_dec b a then true else false
  | _, _ => false
  end.

Definition xr_mul (x y : xreal) : xreal :=
  match x, y with
  | Real a, Real b => Real (a * b)
  | _, _ => NaN
  end.

Definition xr_div (x y : xreal) : xreal :=
  match x, y with
  | Real a, Real b => if Req_dec_T b 0 then NaN else Real (a / b)
  | _, _ => NaN
  end.

(** [arccos] is a real number on [[-1, 1]] only. *)
Definition xr_arccos (x : xreal) : xreal :=
  match x with
  | Real a =>
      if Rle_dec (-1) a then if Rle_dec a 1 then Real (acos a) else NaN
      else NaN
  | NaN => NaN
  end.

(** [tan] is a real number away from its poles. *)
Definition xr_tan (x : xreal) : xreal :=
  match x with
  | Real a => if Req_dec_T (cos a) 0 then NaN else Real (tan a)
  | NaN => NaN
  end.

Definition xr_is_finite (x : xreal) : bool :=
  match x with
  | Real _ => true
  | NaN => false
  end.

Definition xr_of_decimal (m e : Z) : xreal :=
  match e with
  | Zneg p => Real (IZR m / IZR (Z.pow_pos 10 p))
  | _ => Real (IZR (m * 10 ^ e))
  end.

Definition Exact : Arith := {|
  num := xreal;
  of_int := fun z => Real (IZR z);
  of_decimal := xr_of_decimal;
  np_pi := Real PI;
  num_eqb := xr_eqb;
  num_gtb := xr_gtb;
  num_is_finite := xr_is_finite;
  mul := xr_mul;
  div := xr_div;
  np_arccos := xr_arccos;
  np_tan := xr_tan
|}.

Definition is_real (x : xreal) : Prop :=
  match x with
  | Real _ => True
  | NaN => False
  end.

(** Every output of the computation is a real number. *)
Definition all_real (t : triangle Exact) : Prop :=
  is_real (tri_P t) /\ is_real (tri_Q t) /\
  is_real (tri_S t) /\ is_real (tri_angle t).

Definition xr_nonneg (x : xreal) : Prop :=
  match x with
  | Real r => (0 <= r)%R
  | NaN => False
  end.

(** The triangle identity [S = sqrt(P^2 + Q^2)] on the outputs. *)
Definition pythagorean (t : triangle Exact) : Prop :=
  match tri_P t, tri_Q t, tri_S t with
  | Real p, Real q, Real s => (s = sqrt (p² + q²))%R
  | _, _, _ => False
  end.

(** [pf = cos(angle)] with [angle] in [[0, pi/2]]. *)
Definition phase_angle_of (pf : R) (t : triangle Exact) : Prop :=
  match tri_angle t with
  | Real a => (pf = cos a /\ 0 <= a <= PI / 2)%R
  | NaN => False
  end.

(* ================================================================= *)
(** ** Binary64 arithmetic *)

Local Open Scope Z_scope.

Definition prec : Z := 53.
Definition emax : Z := 1024.

Definition f64 : Type := spec_float.

Definition f64_of_Z (z : Z) : f64 := binary_normalize prec emax z 0 false.

(** The double nearest to [m * 10^e] (ties to even), with sign [s]; it
    overflows to an infinity and underflows to a zero. *)
Definition f64_round_decimal (s : bool) (m : positive) (e : Z) : f64 :=
  let n := match e with Zpos p => Zpos m * Z.pow_pos 10 p | _ => Zpos m end in
  let d := match e with Zneg p => Z.pow_pos 10 p | _ => 1 end in
  let '(q, e', l) := SFdiv_core_binary prec emax n 0 d 0 in
  binary_round_aux prec emax s q e' l.

Definition f64_of_decimal (m e : Z) : f64 :=
  match m with
  | Z0 => S754_zero false
  | Zpos p => f64_round_decimal false p e
  | Zneg p => f64_round_decimal true p e
  end.

(** [NPY_PI], the double nearest to pi. *)
Definition f64_pi : f64 :=
  f64_of_decimal 3141592653589793238462643383279502884 (-36).

Definition f64_is_finite (x : f64) : bool :=
  match x with
  | S754_zero _ | S754_finite _ _ _ => true
  | S754_infinity _ | S754_nan => false
  end.

(** The instance is parameterised by libm's [acos] and [tan], which
    NumPy calls and whose bits this development does not fix. *)
Definition Binary64 (libm_acos libm_tan : f64 -> f64) : Arith := {|
  num := f64;
  of_int := f64_of_Z;
  of_decimal := f64_of_decimal;
  np_pi := f64_pi;
  num_eqb := SFeqb;
  num_gtb := fun x y => SFltb y x;
  num_is_finite := f64_is_finite;
  mul := SFmul prec emax;
  div := SFdiv prec emax;
  np_arccos := libm_acos;
  np_tan := libm_tan
|}.

(** The real number a finite double stands for (0 for an infinity or
    NaN, which stand for none). *)
Definition f64_to_R (x : f64) : R :=
  match x with
  | S754_finite s m e =>
      let v := match e with
               | Z0 => IZR (Zpos m)
               | Zpos p => IZR (Zpos m * Z.pow_pos 2 p)
               | Zneg p => (IZR (Zpos m) / IZR (Z.pow_pos 2 p))%R
               end in
      if s then (- v)%R else v
  | _ => 0%R
  end.

(** The real length [sqrt(P^2 + Q^2)] of the hypotenuse that the doubles
    P and Q of a result span. *)
Definition f64_hypotenuse (libm_acos libm_tan : f64 -> f64)
  (t : triangle (Binary64 libm_acos libm_tan)) : R :=
  sqrt ((f64_to_R (tri_P t))² + (f64_to_R (tri_Q t))²)%R.

(* ================================================================= *)
(** ** Python's [float(str)] on ASCII text *)

Module PyFloat.

Local Open Scope char_scope.

Definition code (c : ascii) : N := N_of_ascii c.

(** [Py_ISSPACE]: tab, newline, vertical tab, form feed, carriage
    return and space. *)
Definition is_space (c : ascii) : bool :=
  ((9 <=? code c) && (code c <=? 13) || (code c =? 32))%N.

Definition is_digit (c : ascii) : bool :=
  ((48 <=? code c) && (code c <=? 57))%N.

Definition digit_value (c : ascii) : Z := Z.of_N (code c) - 48.

Definition is_underscore (c : ascii) : bool := (code c =? 95)%N.

Definition to_lower (c : ascii) : ascii :=
  if ((65 <=? code c) && (code c <=? 90))%N
  then ascii_of_N (code c + 32) else c.

Fixpoint lstrip (s : list ascii) : list ascii :=
  match s with
  | c :: t => if is_space c then lstrip t else s
  | [] => []
  end.

Definition strip (s : list ascii) : list ascii :=
  rev (lstrip (rev (lstrip s))).

(** [_Py_string_to_number_with_underscores]: an underscore must stand
    between two digits; the underscores are then removed. *)
Fixpoint drop_underscores (prev : ascii) (s : list ascii)
  : option (list ascii) :=
  match s with
  | [] => if is_underscore prev then None else Some []
  | c :: t =>
      if is_underscore c then
        if is_digit prev then drop_underscores c t else None
      else if is_underscore prev && negb (is_digit c) then None
      else option_map (cons c) (drop_underscores c t)
  end.

Definition parse_sign (s : list ascii) : bool * list ascii :=
  match s with
  | "-" :: t => (true, t)
  | "+" :: t => (false, t)
  | _ => (false, s)
  end.

(** The longest prefix of digits, and the rest. *)
Fixpoint span_digits (s : list ascii) : list ascii * list ascii :=
  match s with
  | c :: t =>
      if is_digit c then let (ds, r) := span_digits t in (c :: ds, r)
      else ([], s)
  | [] => ([], [])
  end.

Definition digits_value (ds : list ascii) : Z :=
  fold_left (fun acc c => 10 * acc + digit_value c) ds 0.

(** [[sign] digits] closing the string: the exponent after [e] or [E]. *)
Definition parse_exponent (s : list ascii) : option Z :=
  let (neg, r) := parse_sign s in
  match span_digits r with
  | ((_ :: _) as ds, []) =>
      Some (if neg then - digits_value ds else digits_value ds)
  | _ => None
  end.

(** [digits [. [digits]] [exponent]] or [. digits [exponent]], the whole
    string: the digits as an integer and the power of ten to apply. *)
Definition parse_number (s : list ascii) : option (Z * Z) :=
  let (int_part, r1) := span_digits s in
  let (frac_part, r2) :=
    match r1 with
    | "." :: t => span_digits t
    | _ => ([], r1)
    end in
  match int_part ++ frac_part with
  | [] => None
  | ds =>
      let shift := Z.of_nat (List.length frac_part) in
      match r2 with
      | [] => Some (digits_value ds, - shift)
      | c :: t =>
          if (code (to_lower c) =? 101)%N then
            option_map (fun e => (digits_value ds, e - shift))
                       (parse_exponent t)
          else None
      end
  end.

(** [_Py_parse_inf_or_nan], after the sign: [inf], [infinity] or [nan]
    in any case. *)
Definition parse_inf_or_nan (neg : bool) (s : list ascii) : option f64 :=
  let w := string_of_list_ascii (map to_lower s) in
  if String.eqb w "inf" || String.eqb w "infinity"
  then Some (S754_infinity neg)
  else if String.eqb w "nan" then Some S754_nan
  else None.

Definition float_of_ascii (s : list ascii) : option f64 :=
  let (neg, body) := parse_sign s in
  match parse_number body with
  | Some (Z0, _) => Some (S754_zero neg)
  | Some (Zpos m, e) => Some (f64_round_decimal neg m e)
  | Some (Zneg _, _) => None
  | None => parse_inf_or_nan neg body
  end.

(** [float(s)] for a [str] of ASCII characters: the text is stripped of
    surrounding white space, underscores between digits are dropped,
    and the rest must be a whole float literal; anything else raises
    [ValueError].  (Python also maps the decimal digits and spaces of
    other scripts to ASCII first; a string with such characters is
    outside this model, which rejects it.) *)
Definition py_float (s : string) : result f64 :=
  match strip (list_ascii_of_string s) with
  | [] => Raise ValueError
  | t =>
      match drop_underscores "000" t with
      | None => Raise ValueError
      | Some u =>
          match float_of_ascii u with
          | Some x => Ok x
          | None => Raise ValueError
          end
      end
  end.

End PyFloat.

Import PyFloat.

(* ================================================================= *)
(** ** The keystroke validators *)

Definition f64_zero : f64 := f64_of_Z 0.
Definition f64_one : f64 := f64_of_Z 1.

(** [validate_active_power(self, new_value)] *)
Definition validate_active_power (new_value : string) : result bool :=
  if String.eqb new_value "" then Ok true
  else
    except_ValueError
      (value <- py_float new_value ;;
       Ok (SFleb f64_zero value))
      (Ok false).

(** [validate_power_factor(self, new_value)] *)
Definition validate_power_factor (new_value : string) : result bool :=
  if String.eqb new_value "" then Ok true
  else
    except_ValueError
      (value <- py_float new_value ;;
       Ok (SFleb f64_zero value && SFleb value f64_one))
      (Ok false).


(** Acceptance as the specification words it: the empty string, or a
    text that parses as a real number (a finite double) in range. *)
Definition spec_accepts_active_power (s : string) : Prop :=
  s = EmptyString \/
  exists x, py_float s = Ok x /\
            f64_is_finite x = true /\ SFleb f64_zero x = true.

Definition spec_accepts_power_factor (s : string) : Prop :=
  s = EmptyString \/
  exists x, py_float s = Ok x /\
            f64_is_finite x = true /\
            SFleb f64_zero x = true /\ SFleb x f64_one = true.

(* ================================================================= *)
(** ** The entry fields *)

(** An [Entry] made with [validate='key'] and
    [validatecommand=(command, '%P')]: on every edit Tk calls the command
    with the text the edit would produce, and applies the edit only when
    the command returns [True].  (The two validators never raise, so what
    Tk does when a command fails plays no part.) *)
Definition key_edit (command : string -> result bool)
  (text new_value : string) : string :=
  match command new_value with
  | Ok true => new_value
  | _ => text
  end.

(** A run of edits, each proposing a new text. *)
Definition key_edits (command : string -> result bool)
  (text : string) (edits : list string) : string :=
  fold_left (key_edit command) edits text.

(** A zero of either sign, or a positive double, finite or infinite. *)
Definition f64_zero_or_positive (x : f64) : bool :=
  match x with
  | S754_zero _ => true
  | S754_finite s _ _ | S754_infinity s => negb s
  | S754_nan => false
  end.

(* ================================================================= *)
(** ** Reading the plot and the reference frame *)

(** The length of the first arrow drawn in a colour. *)
Fixpoint arrow_length (color : string) (l : list (artist Exact))
  : option R :=
  match l with
  | [] => None
  | Arrow _ _ _ (Real dx) (Real dy) _ _ c :: rest =>
      if String.eqb c color then Some (sqrt (dx² + dy²))%R
      else arrow_length color rest
  | _ :: rest => arrow_length color rest
  end.

(** The number shown in the first row with a caption. *)
Fixpoint row_value (N : Arith) (cap : string) (rows : list (ref_row N))
  : option N :=
  match rows with
  | [] => None
  | r :: rest =>
      if String.eqb (caption N r) cap then Some (value N r)
      else row_value N cap rest
  end.

(** The end angle of the first arc. *)
Fixpoint arc_theta2 (N : Arith) (l : list (artist N)) : option N :=
  match l with
  | [] => None
  | Arc _ _ _ _ theta2 _ :: _ => Some theta2
  | _ :: rest => arc_theta2 N rest
  end.

(* ================================================================= *)
(** ** The two branches of [compute], in any arithmetic *)

Section Branches.

Variable N : Arith.

Lemma compute_zero_branch (P_input pf : N) :
  num_eqb N pf (of_int N 0) = true ->
  compute N P_input pf =
  (angle <- py_truediv N (np_pi N) (of_int N 2) ;;
   Ok (Build_triangle N (of_int N 0) P_input P_input angle)).
Proof.
  intros Hz. unfold compute. rewrite Hz. reflexivity.
Qed.

(** Past the test [pf == 0] the divisor of [P / pf] is not zero, so the
    division does not raise. *)
Lemma compute_else_branch (P_input pf : N) :
  num_eqb N pf (of_int N 0) = false ->
  compute N P_input pf =
  Ok (Build_triangle N
        P_input
        (mul N P_input (np_tan N (np_arccos N pf)))
        (div N P_input pf)
        (np_arccos N pf)).
Proof.
  intros Hnz. unfold compute, py_truediv. rewrite Hnz. reflexivity.
Qed.

(** Whatever the arithmetic, [compute] raises nothing: the only division
    by a variable is guarded by the test, and the other divides by 2. *)
Lemma compute_never_raises (P_input pf : N) :
  num_eqb N (of_int N 2) (of_int N 0) = false ->
  exists t, compute N P_input pf = Ok t.
Proof.
  intros H2.
  destruct (num_eqb N pf (of_int N 0)) eqn:Hpf.
  - rewrite compute_zero_branch by assumption.
    unfold py_truediv. rewrite H2. cbn [bind]. eexists. reflexivity.
  - rewrite compute_else_branch by assumption. eexists. reflexivity.
Qed.

End Branches.

(* ================================================================= *)
(** ** Exact arithmetic *)

Section ExactFacts.

Local Open Scope R_scope.

Lemma xr_eqb_refl (a : R) : xr_eqb (Real a) (Real a) = true.
Proof.
  unfold xr_eqb. destruct (Req_dec_T a a); congruence.
Qed.

Lemma xr_eqb_neq (a b : R) : a <> b -> xr_eqb (Real a) (Real b) = false.
Proof.
  intros Hab. unfold xr_eqb. destruct (Req_dec_T a b); congruence.
Qed.

Lemma xr_div_nonzero (a b : R) :
  b <> 0 -> xr_div (Real a) (Real b) = Real (a / b).
Proof.
  intros Hb. unfold xr_div. destruct (Req_dec_T b 0); congruence.
Qed.

Lemma xr_arccos_in_domain (x : R) :
  -1 <= x <= 1 -> xr_arccos (Real x) = Real (acos x).
Proof.
  intros [Hlo Hhi]. unfold xr_arccos.
  destruct (Rle_dec (-1) x); [| contradiction].
  destruct (Rle_dec x 1); [reflexivity | contradiction].
Qed.

Lemma xr_arccos_above_one (x : R) : 1 < x -> xr_arccos (Real x) = NaN.
Proof.
  intros Hx. unfold xr_arccos.
  destruct (Rle_dec (-1) x); [| reflexivity].
  destruct (Rle_dec x 1); [lra | reflexivity].
Qed.

Lemma xr_tan_defined (a : R) : cos a <> 0 -> xr_tan (Real a) = Real (tan a).
Proof.
  intros Hc. unfold xr_tan. destruct (Req_dec_T (cos a) 0); congruence.
Qed.

(** The degenerate branch in exact arithmetic. *)
Lemma compute_exact_zero (P_input : R) :
  compute Exact (Real P_input) (Real 0) =
  Ok (Build_triangle Exact
        (Real 0) (Real P_input) (Real P_input) (Real (PI / 2))).
Proof.
  rewrite compute_zero_branch by apply xr_eqb_refl.
  unfold py_truediv. cbn [Exact num num_eqb of_int np_pi div].
  rewrite xr_eqb_neq by lra.
  rewrite xr_div_nonzero by lra.
  reflexivity.
Qed.

(** The general branch in exact arithmetic: on [(0, 1]] the arccosine is
    in its domain and the tangent is away from its pole. *)
Lemma compute_exact_else (P_input pf : R) :
  0 < pf <= 1 ->
  compute Exact (Real P_input) (Real pf) =
  Ok (Build_triangle Exact
        (Real P_input)
        (Real (P_input * tan (acos pf)))
        (Real (P_input / pf))
        (Real (acos pf))).
Proof.
  intros [Hpos Hle1].
  rewrite compute_else_branch
    by (cbn [Exact num num_eqb of_int]; apply xr_eqb_neq; lra).
  cbn [Exact num np_arccos np_tan mul div].
  rewrite xr_arccos_in_domain by lra.
  rewrite xr_tan_defined by (rewrite cos_acos; lra).
  rewrite xr_div_nonzero by lra.
  reflexivity.
Qed.

Lemma tan_acos_nonneg (pf : R) : 0 < pf <= 1 -> 0 <= tan (acos pf).
Proof.
  intros [Hpos Hle1].
  rewrite tan_acos by lra.
  apply Rmult_le_pos.
  - apply sqrt_pos.
  - left. apply Rinv_0_lt_compat. exact Hpos.
Qed.

(** [(P / pf)^2 = P^2 + (P tan (arccos pf))^2]. *)
Lemma hypotenuse_sqr (P_input pf : R) :
  0 < pf <= 1 ->
  (P_input / pf)² = P_input² + (P_input * tan (acos pf))².
Proof.
  intros [Hpos Hle1].
  rewrite tan_acos by lra.
  assert (Hw : (sqrt (1 - pf²))² = 1 - pf²).
  { apply Rsqr_sqrt. unfold Rsqr. nra. }
  set (w := sqrt (1 - pf²)) in *.
  replace ((P_input * (w / pf))²) with (P_input² * w² / pf²)
    by (unfold Rsqr; field; lra).
  rewrite Hw. unfold Rsqr. field. lra.
Qed.

Lemma acos_le_PI2 (pf : R) : 0 <= pf <= 1 -> 0 <= acos pf <= PI / 2.
Proof.
  intros [Hlo Hhi]. split; [apply acos_bound |].
  destruct (Req_dec_T pf 0) as [-> | Hnz].
  - rewrite acos_0. lra.
  - rewrite acos_atan by lra.
    left. apply atan_bound.
Qed.

End ExactFacts.

(* ================================================================= *)
(** ** The computation on the validated domain *)

Section Computation.

Local Open Scope R_scope.

(** C1. For every activePowerInput >= 0 and every powerFactor in (0, 1],
    the computation sets P = activePowerInput, angle = arccos(powerFactor),
    Q = P * tan(angle) and S = P / powerFactor. *)
Theorem compute_general_case (P_input pf : R) :
  0 <= P_input -> 0 < pf <= 1 ->
  compute Exact (Real P_input) (Real pf) =
  Ok (Build_triangle Exact
        (Real P_input)
        (Real (P_input * tan (acos pf)))
        (Real (P_input / pf))
        (Real (acos pf))).
Proof.
  intros _ Hpf. apply compute_exact_else. exact Hpf.
Qed.

Lemma compute_general_case_witness :
  0 <= 100 /\ 0 < 4 / 5 <= 1 /\
  compute Exact (Real 100) (Real (4 / 5)) =
  Ok (Build_triangle Exact
        (Real 100)
        (Real (100 * tan (acos (4 / 5))))
        (Real (100 / (4 / 5)))
        (Real (acos (4 / 5)))).
Proof.
  split; [lra |]. split; [lra |].
  apply (compute_general_case 100 (4 / 5)); lra.
Defined.

(** C2. For every activePowerInput >= 0, when powerFactor == 0 the
    computation returns P = 0, Q = S = activePowerInput and
    angle = pi/2. *)
Theorem compute_degenerate_case (P_input : R) :
  0 <= P_input ->
  compute Exact (Real P_input) (Real 0) =
  Ok (Build_triangle Exact
        (Real 0) (Real P_input) (Real P_input) (Real (PI / 2))).
Proof.
  intros _. apply compute_exact_zero.
Qed.

Lemma compute_degenerate_case_witness :
  0 <= 50 /\
  compute Exact (Real 50) (Real 0) =
  Ok (Build_triangle Exact (Real 0) (Real 50) (Real 50) (Real (PI / 2))).
Proof.
  split; [lra |]. apply (compute_degenerate_case 50). lra.
Defined.

(** C4, as amended. In exact arithmetic, for every activePowerInput >= 0
    and every powerFactor with 0 < powerFactor <= 1, the outputs satisfy
    S = sqrt(P^2 + Q^2). *)
Theorem compute_pythagorean (P_input pf : R) :
  0 <= P_input -> 0 < pf <= 1 ->
  exists t,
    compute Exact (Real P_input) (Real pf) = Ok t /\ pythagorean t.
Proof.
  intros HP Hpf.
  eexists. split; [apply compute_exact_else; exact Hpf |].
  unfold pythagorean. cbn [tri_P tri_Q tri_S].
  rewrite <- hypotenuse_sqr by exact Hpf.
  symmetry. apply sqrt_Rsqr.
  apply Rmult_le_pos; [exact HP |].
  left. apply Rinv_0_lt_compat. lra.
Qed.

Lemma compute_pythagorean_witness :
  exists t,
    compute Exact (Real 100) (Real (4 / 5)) = Ok t /\ pythagorean t.
Proof.
  apply (compute_pythagorean 100 (4 / 5)); lra.
Defined.

(** C5, as amended. For every activePowerInput >= 0 and every powerFactor
    with 0 < powerFactor <= 1 the computation raises nothing (the
    division P / powerFactor is guarded, so no division by zero occurs)
    and, in exact arithmetic, each of P, Q, S and angle is a real
    number; in binary64 the computation raises nothing on any input. *)
Theorem compute_defined_on_validated_domain (P_input pf : R) :
  0 <= P_input -> 0 < pf <= 1 ->
  (exists t,
     compute Exact (Real P_input) (Real pf) = Ok t /\ all_real t) /\
  (forall (libm_acos libm_tan : f64 -> f64) (x y : f64),
   exists t, compute (Binary64 libm_acos libm_tan) x y = Ok t).
Proof.
  intros _ Hpf. split.
  - eexists. split; [apply compute_exact_else; exact Hpf |].
    repeat split.
  - intros libm_acos libm_tan x y.
    apply compute_never_raises. vm_compute. reflexivity.
Qed.

Lemma compute_defined_on_validated_domain_witness :
  exists t,
    compute Exact (Real 100) (Real (4 / 5)) = Ok t /\ all_real t.
Proof.
  apply (compute_defined_on_validated_domain 100 (4 / 5)); lra.
Defined.

(** C6. For every valid input (activePowerInput >= 0 and powerFactor in
    [0, 1]) the computed Q and S are >= 0. *)
Theorem compute_Q_S_nonneg (P_input pf : R) :
  0 <= P_input -> 0 <= pf <= 1 ->
  exists t,
    compute Exact (Real P_input) (Real pf) = Ok t /\
    xr_nonneg (tri_Q t) /\ xr_nonneg (tri_S t).
Proof.
  intros HP [Hlo Hhi].
  destruct (Req_dec_T pf 0) as [-> | Hnz].
  - eexists. split; [apply compute_exact_zero |].
    split; exact HP.
  - assert (Hpf : 0 < pf <= 1) by lra.
    eexists. split; [apply compute_exact_else; exact Hpf |].
    cbn [tri_Q tri_S xr_nonneg]. split.
    + apply Rmult_le_pos; [exact HP | apply tan_acos_nonneg; exact Hpf].
    + apply Rmult_le_pos; [exact HP |].
      left. apply Rinv_0_lt_compat. lra.
Qed.

Lemma compute_Q_S_nonneg_witness :
  exists t,
    compute Exact (Real 50) (Real 0) = Ok t /\
    xr_nonneg (tri_Q t) /\ xr_nonneg (tri_S t).
Proof.
  apply (compute_Q_S_nonneg 50 0); lra.
Defined.

(** C7. For every activePowerInput >= 0, when powerFactor == 1 the
    computation yields angle == 0, Q == 0 and S == P ==
    activePowerInput. *)
Theorem compute_unity_power_factor (P_input : R) :
  0 <= P_input ->
  compute Exact (Real P_input) (Real 1) =
  Ok (Build_triangle Exact
        (Real P_input) (Real 0) (Real P_input) (Real 0)).
Proof.
  intros _.
  rewrite compute_exact_else by lra.
  rewrite acos_1, tan_0, Rmult_0_r, Rdiv_1_r.
  reflexivity.
Qed.

Lemma compute_unity_power_factor_witness :
  0 <= 100 /\
  compute Exact (Real 100) (Real 1) =
  Ok (Build_triangle Exact (Real 100) (Real 0) (Real 100) (Real 0)).
Proof.
  split; [lra |]. apply (compute_unity_power_factor 100). lra.
Defined.

End Computation.

(** C5, the claim as stated fails twice.  A power factor above 1 is
    positive, yet its arccosine is not a number, and neither is Q; and in
    binary64, whatever libm computes, S = 1e308 / 0.1 overflows to
    +infinity although 1e308 >= 0 and 0 < 0.1 <= 1. *)
Lemma compute_not_finite_for_every_positive_pf :
  ((0 <= 100)%R /\ (0 < 2)%R /\
   compute Exact (Real 100) (Real 2) =
   Ok (Build_triangle Exact (Real 100) NaN (Real (100 / 2)) NaN) /\
   ~ all_real (Build_triangle Exact (Real 100) NaN (Real (100 / 2)) NaN))
  /\
  (SFleb f64_zero (f64_of_decimal 1 308) = true /\
   SFltb f64_zero (f64_of_decimal 1 (-1)) = true /\
   SFleb (f64_of_decimal 1 (-1)) f64_one = true /\
   forall libm_acos libm_tan : f64 -> f64,
   exists t,
     compute (Binary64 libm_acos libm_tan)
             (f64_of_decimal 1 308) (f64_of_decimal 1 (-1)) = Ok t /\
     tri_S t = S754_infinity false /\
     f64_is_finite (tri_S t) = false).
Proof.
  split.
  - split; [lra |]. split; [lra |]. split.
    + rewrite compute_else_branch
        by (cbn [Exact num num_eqb of_int]; apply xr_eqb_neq; lra).
      cbn [Exact num np_arccos np_tan mul div].
      rewrite xr_arccos_above_one by lra.
      rewrite xr_div_nonzero by lra.
      reflexivity.
    + unfold all_real. cbn [tri_Q is_real]. tauto.
  - split; [vm_compute; reflexivity |].
    split; [vm_compute; reflexivity |].
    split; [vm_compute; reflexivity |].
    intros libm_acos libm_tan.
    eexists. split.
    + apply compute_else_branch. vm_compute. reflexivity.
    + cbn [tri_S]. split; vm_compute; reflexivity.
Qed.

(* ================================================================= *)
(** ** [update_plot] and the state of the form *)

(** C8. The computation is deterministic and idempotent: two runs on
    identical inputs (activePowerInput, powerFactor) yield identical
    outputs, whatever else the form holds (the axes and the reference
    frame of an earlier run), and a second run of [update_plot] changes
    nothing. *)
Theorem update_plot_deterministic
  (N : Arith) (self1 self2 : PowerTriangleSimulation N) :
  active_power self1 = active_power self2 ->
  power_factor self1 = power_factor self2 ->
  compute N (active_power self1) (power_factor self1) =
  compute N (active_power self2) (power_factor self2) /\
  update_plot self1 = update_plot self2 /\
  (forall self', update_plot self1 = Ok self' ->
                 update_plot self' = Ok self').
Proof.
  intros HP Hpf.
  split; [rewrite HP, Hpf; reflexivity |].
  split.
  - unfold update_plot. rewrite HP, Hpf. reflexivity.
  - intros self' Hrun. unfold update_plot in Hrun.
    destruct (compute N (active_power self1) (power_factor self1))
      as [t | e] eqn:Ht; cbn [bind] in Hrun; [| discriminate].
    destruct (draw N t) as [a | e] eqn:Ha; cbn [bind] in Hrun;
      [| discriminate].
    injection Hrun as <-.
    unfold update_plot.
    cbn [active_power power_factor]. rewrite Ht. cbn [bind].
    rewrite Ha. reflexivity.
Qed.

Lemma update_plot_deterministic_witness :
  update_plot (create_widgets Exact) =
  update_plot
    (Build_PowerTriangleSimulation Exact
       (Real 100) (Real (8 / 10))
       (Build_axes Exact (Real 0, Real 120) (Real 0, Real 120)
          [Arc Exact NaN NaN (Real 0) NaN "k"])
       [Build_ref_row Exact "Power Factor:" (Real 1) ""]).
Proof.
  apply (update_plot_deterministic Exact); reflexivity.
Defined.

(* ================================================================= *)
(** ** The validators *)

Section Validators.

Local Open Scope string_scope.

Lemma f64_zero_eq : f64_zero = S754_zero false.
Proof. reflexivity. Qed.

Lemma f64_one_eq : f64_one = S754_finite false 4503599627370496 (-52).
Proof. vm_compute. reflexivity. Qed.

(** [float()] raises nothing but [ValueError]. *)
Lemma py_float_raises_ValueError (s : string) (e : exn) :
  py_float s = Raise e -> e = ValueError.
Proof.
  unfold py_float.
  destruct (strip (list_ascii_of_string s)) as [| c t]; [congruence |].
  destruct (drop_underscores _ _) as [u |]; [| congruence].
  destruct (float_of_ascii u); congruence.
Qed.

(** The body of each validator past the test for the empty string. *)
Lemma validate_active_power_nonempty (s : string) :
  s <> "" ->
  validate_active_power s =
  match py_float s with
  | Ok value => Ok (SFleb f64_zero value)
  | Raise _ => Ok false
  end.
Proof.
  intros Hne. unfold validate_active_power.
  destruct (String.eqb_spec s ""); [contradiction |].
  destruct (py_float s) as [x | e] eqn:Hp; [reflexivity |].
  apply py_float_raises_ValueError in Hp. subst e. reflexivity.
Qed.

Lemma validate_power_factor_nonempty (s : string) :
  s <> "" ->
  validate_power_factor s =
  match py_float s with
  | Ok value => Ok (SFleb f64_zero value && SFleb value f64_one)
  | Raise _ => Ok false
  end.
Proof.
  intros Hne. unfold validate_power_factor.
  destruct (String.eqb_spec s ""); [contradiction |].
  destruct (py_float s) as [x | e] eqn:Hp; [reflexivity |].
  apply py_float_raises_ValueError in Hp. subst e. reflexivity.
Qed.

Lemma py_float_empty : py_float "" = Raise ValueError.
Proof. reflexivity. Qed.

(** A double that compares [>= 0] is finite or +infinity. *)
Lemma nonneg_finite_or_infinity (x : f64) :
  SFleb f64_zero x = true ->
  f64_is_finite x = true \/ x = S754_infinity false.
Proof.
  rewrite f64_zero_eq.
  destruct x as [s | [|] | | s m e]; cbn; intros H;
    solve [now left | now right | discriminate].
Qed.

(** A double that compares inside [[0, 1]] is finite. *)
Lemma unit_interval_finite (x : f64) :
  SFleb f64_zero x = true -> SFleb x f64_one = true ->
  f64_is_finite x = true.
Proof.
  rewrite f64_zero_eq, f64_one_eq.
  destruct x as [s | [|] | | s m e]; intros H0 H1;
    [reflexivity | discriminate H0 | discriminate H1
    | discriminate H0 | reflexivity].
Qed.

Lemma validate_active_power_iff (s : string) :
  validate_active_power s = Ok true <->
  s = "" \/ exists x, py_float s = Ok x /\ SFleb f64_zero x = true.
Proof.
  destruct (String.eqb_spec s "") as [-> | Hne].
  - split; [now left | reflexivity].
  - rewrite validate_active_power_nonempty by exact Hne.
    destruct (py_float s) as [x | e].
    + split.
      * intros H. right. exists x. split; congruence.
      * intros [Hs | [y [Hy Hle]]]; [contradiction | congruence].
    + split; [discriminate |].
      intros [Hs | [y [Hy _]]]; [contradiction | discriminate].
Qed.

Lemma validate_power_factor_iff (s : string) :
  validate_power_factor s = Ok true <->
  s = "" \/
  exists x, py_float s = Ok x /\
            SFleb f64_zero x = true /\ SFleb x f64_one = true.
Proof.
  destruct (String.eqb_spec s "") as [-> | Hne].
  - split; [now left | reflexivity].
  - rewrite validate_power_factor_nonempty by exact Hne.
    destruct (py_float s) as [x | e].
    + split.
      * intros H. right. exists x.
        injection H as H. apply andb_true_iff in H. tauto.
      * intros [Hs | [y [Hy [H0 H1]]]]; [contradiction |].
        injection Hy as <-. rewrite H0, H1. reflexivity.
    + split; [discriminate |].
      intros [Hs | [y [Hy _]]]; [contradiction | discriminate].
Qed.

(** The validators return a boolean on every string. *)
Lemma validators_total (s : string) :
  (validate_active_power s = Ok true \/
   validate_active_power s = Ok false) /\
  (validate_power_factor s = Ok true \/
   validate_power_factor s = Ok false).
Proof.
  destruct (String.eqb_spec s "") as [-> | Hne].
  - split; left; reflexivity.
  - rewrite validate_active_power_nonempty,
            validate_power_factor_nonempty by exact Hne.
    destruct (py_float s) as [x | e].
    + split.
      * destruct (SFleb f64_zero x); [left | right]; reflexivity.
      * destruct (SFleb f64_zero x && SFleb x f64_one);
          [left | right]; reflexivity.
    + split; right; reflexivity.
Qed.

(** C3, the claim as stated fails: the active-power validator accepts
    "inf", which is not empty and does not parse as a real number. *)
Lemma validate_active_power_accepts_inf :
  validate_active_power "inf" = Ok true /\
  py_float "inf" = Ok (S754_infinity false) /\
  ~ spec_accepts_active_power "inf".
Proof.
  split; [vm_compute; reflexivity |].
  split; [vm_compute; reflexivity |].
  intros [Hempty | [x [Hx [Hfin _]]]]; [discriminate |].
  assert (Hinf : py_float "inf" = Ok (S754_infinity false))
    by (vm_compute; reflexivity).
  rewrite Hinf in Hx. injection Hx as <-. discriminate.
Qed.

(** C3, as amended. The active-power validator accepts a string if and
    only if it is empty or [float()] parses it to a value >= 0, which is a
    real number or +infinity; the power-factor validator accepts a string
    if and only if it is empty or parses as a real number in [0, 1].
    Every other string is rejected. *)
Theorem validators_accept_iff (s : string) :
  (validate_active_power s = Ok true <->
   s = "" \/
   exists x, py_float s = Ok x /\
             (f64_is_finite x = true \/ x = S754_infinity false) /\
             SFleb f64_zero x = true) /\
  (validate_power_factor s = Ok true <-> spec_accepts_power_factor s) /\
  (validate_active_power s <> Ok true ->
   validate_active_power s = Ok false) /\
  (validate_power_factor s <> Ok true ->
   validate_power_factor s = Ok false).
Proof.
  split; [| split; [| split]].
  - rewrite validate_active_power_iff. split.
    + intros [Hs | [x [Hx Hle]]]; [now left |].
      right. exists x. split; [exact Hx |].
      split; [apply nonneg_finite_or_infinity |]; exact Hle.
    + intros [Hs | [x [Hx [_ Hle]]]]; [now left |].
      right. exists x. split; assumption.
  - rewrite validate_power_factor_iff. unfold spec_accepts_power_factor.
    split.
    + intros [Hs | [x [Hx [H0 H1]]]]; [now left |].
      right. exists x. split; [exact Hx |].
      split; [apply unit_interval_finite; assumption |].
      split; assumption.
    + intros [Hs | [x [Hx [_ [H0 H1]]]]]; [now left |].
      right. exists x. split; [exact Hx |]. split; assumption.
  - destruct (validators_total s) as [[H | H] _]; [contradiction | auto].
  - destruct (validators_total s) as [_ [H | H]]; [contradiction | auto].
Qed.

(** C10. The validators accept every string that [float()] parses to a
    value in range, so a non-finite spelling passes:
    [validate_active_power("inf")] is [True] and admits an infinite
    active power, while "nan" is rejected by both validators because
    every comparison with NaN is false. *)
Theorem validators_follow_float_parser :
  (forall s x, py_float s = Ok x -> SFleb f64_zero x = true ->
               validate_active_power s = Ok true) /\
  (forall s x, py_float s = Ok x ->
               SFleb f64_zero x = true -> SFleb x f64_one = true ->
               validate_power_factor s = Ok true) /\
  py_float "inf" = Ok (S754_infinity false) /\
  validate_active_power "inf" = Ok true /\
  py_float "nan" = Ok S754_nan /\
  validate_active_power "nan" = Ok false /\
  validate_power_factor "nan" = Ok false /\
  (forall x, SFleb x S754_nan = false /\ SFleb S754_nan x = false).
Proof.
  split.
  { intros s x Hx Hle. apply validate_active_power_iff.
    right. exists x. split; assumption. }
  split.
  { intros s x Hx H0 H1. apply validate_power_factor_iff.
    right. exists x. split; [exact Hx |]. split; assumption. }
  repeat split; try (vm_compute; reflexivity).
  destruct x; reflexivity.
Qed.

Lemma validators_follow_float_parser_witness :
  validate_active_power "1e999" = Ok true /\
  validate_power_factor "0.8" = Ok true.
Proof.
  split.
  - apply (proj1 validators_follow_float_parser
             "1e999" (S754_infinity false));
      vm_compute; reflexivity.
  - apply (proj1 (proj2 validators_follow_float_parser)
             "0.8" (S754_finite false 7205759403792794 (-53)));
      vm_compute; reflexivity.
Defined.

End Validators.

(* ================================================================= *)
(** ** Binary64 runs *)

Section Binary64Runs.

Variables libm_acos libm_tan : f64 -> f64.

Let B : Arith := Binary64 libm_acos libm_tan.

Lemma f64_two_nonzero : SFeqb (f64_of_Z 2) (f64_of_Z 0) = false.
Proof. vm_compute. reflexivity. Qed.

Lemma f64_half_pi :
  SFdiv prec emax f64_pi (f64_of_Z 2) =
  S754_finite false 7074237752028440 (-52).
Proof. vm_compute. reflexivity. Qed.

(** The degenerate branch in binary64; it is taken for [0.0] and for
    [-0.0], which both compare equal to 0. *)
Lemma compute_binary64_zero (P_input pf : f64) :
  SFeqb pf (f64_of_Z 0) = true ->
  compute B P_input pf =
  Ok (Build_triangle B (f64_of_Z 0) P_input P_input
        (S754_finite false 7074237752028440 (-52))).
Proof.
  intros Hz.
  rewrite compute_zero_branch by exact Hz.
  unfold py_truediv. cbn [B Binary64 num num_eqb of_int np_pi div].
  rewrite f64_two_nonzero, f64_half_pi. reflexivity.
Qed.

(** [compute(100, 0.8)]: P = 100 and S = 125 exactly. *)
Example run_100_08 :
  exists t,
    compute B (f64_of_Z 100) (f64_of_decimal 8 (-1)) = Ok t /\
    tri_P t = f64_of_Z 100 /\ tri_S t = f64_of_Z 125.
Proof.
  eexists. split.
  - apply compute_else_branch. vm_compute. reflexivity.
  - cbn [tri_P tri_S B Binary64 div]. split; vm_compute; reflexivity.
Qed.

(** [compute(50, 0)]: P = 0, Q = S = 50 and the angle is shown as 90
    degrees. *)
Example run_50_0 :
  exists t,
    compute B (f64_of_Z 50) (f64_of_Z 0) = Ok t /\
    tri_P t = f64_of_Z 0 /\ tri_Q t = f64_of_Z 50 /\
    tri_S t = f64_of_Z 50 /\
    np_degrees B (tri_angle t) = f64_of_Z 90.
Proof.
  eexists. split.
  - apply compute_binary64_zero. vm_compute. reflexivity.
  - cbn [tri_P tri_Q tri_S tri_angle].
    repeat split.
Qed.

(** An infinite active power, which the validator lets through, gives
    [Q = inf * 0 = NaN] at unity power factor as soon as libm has
    [acos(1.0) = 0.0] and [tan(0.0) = 0.0]. *)
Lemma run_infinite_active_power :
  libm_acos f64_one = f64_zero ->
  libm_tan f64_zero = f64_zero ->
  compute B (S754_infinity false) f64_one =
  Ok (Build_triangle B
        (S754_infinity false) S754_nan (S754_infinity false) f64_zero).
Proof.
  intros Hacos Htan.
  rewrite compute_else_branch by (vm_compute; reflexivity).
  cbn [B Binary64 num np_arccos np_tan mul div].
  rewrite Hacos, Htan.
  replace (SFmul prec emax (S754_infinity false) f64_zero)
    with S754_nan by (vm_compute; reflexivity).
  replace (SFdiv prec emax (S754_infinity false) f64_one)
    with (S754_infinity false) by (vm_compute; reflexivity).
  reflexivity.
Qed.

End Binary64Runs.

(* ================================================================= *)
(** ** The outputs in exact arithmetic, in one statement *)

Section ExactOutputs.

Local Open Scope R_scope.

(** On the valid domain the four outputs are real numbers [p], [q], [s],
    [a] with [s] the largest of the three powers. *)
Lemma compute_exact_valid (P_input pf : R) :
  0 <= P_input -> 0 <= pf <= 1 ->
  exists p q s a,
    compute Exact (Real P_input) (Real pf) =
    Ok (Build_triangle Exact (Real p) (Real q) (Real s) (Real a)) /\
    0 <= p <= s /\ 0 <= q <= s /\ s² = p² + q² /\
    p = pf * s /\ 0 <= a <= PI / 2 /\ pf = cos a /\
    P_input <= s /\ (P_input = 0 -> s = 0).
Proof.
  intros HP [Hlo Hhi].
  destruct (Req_dec_T pf 0) as [-> | Hnz].
  - exists 0, P_input, P_input, (PI / 2).
    split; [apply compute_exact_zero |].
    pose proof PI_RGT_0.
    rewrite cos_PI2. unfold Rsqr.
    repeat split; try lra; auto.
  - assert (Hpf : 0 < pf <= 1) by lra.
    pose proof (tan_acos_nonneg pf Hpf) as Htan.
    pose proof (hypotenuse_sqr P_input pf Hpf) as Hsq.
    pose proof (acos_le_PI2 pf (conj Hlo Hhi)) as Hacos.
    assert (Hinv : 0 < / pf) by (apply Rinv_0_lt_compat; lra).
    assert (Hs : 0 <= P_input / pf)
      by (apply Rmult_le_pos; lra).
    assert (Hq : 0 <= P_input * tan (acos pf))
      by (apply Rmult_le_pos; assumption).
    assert (Hps : P_input <= P_input / pf).
    { apply Rmult_le_reg_r with pf; [lra |].
      unfold Rdiv. rewrite Rmult_assoc, Rinv_l by lra. nra. }
    assert (Hqs : P_input * tan (acos pf) <= P_input / pf).
    { unfold Rsqr in Hsq. nra. }
    exists P_input, (P_input * tan (acos pf)), (P_input / pf), (acos pf).
    split; [apply compute_exact_else; exact Hpf |].
    repeat split; try lra; try assumption.
    + field. lra.
    + rewrite cos_acos; lra.
    + intros ->. unfold Rdiv. apply Rmult_0_l.
Qed.

Lemma py_max3_exact (p q s : R) :
  p <= s -> q <= s ->
  py_max3 Exact (Real p) (Real q) (Real s) = Real s.
Proof.
  intros Hp Hq. unfold py_max3. cbn [Exact num num_gtb xr_gtb].
  destruct (Rlt_dec p q) as [Hpq | Hpq]; cbn [xr_gtb];
    match goal with
    | |- context [Rlt_dec ?m s] =>
        destruct (Rlt_dec m s); [reflexivity | f_equal; lra]
    end.
Qed.

Lemma np_degrees_exact (a : R) :
  np_degrees Exact (Real a) = Real (a * (180 / PI)).
Proof.
  unfold np_degrees. cbn [Exact num mul div of_int np_pi].
  rewrite xr_div_nonzero by apply PI_neq0.
  reflexivity.
Qed.

(** What is drawn for real outputs with [s] the largest: no limit and no
    angle is other than finite, so Matplotlib raises nothing. *)
Lemma draw_exact (p q s a : R) :
  p <= s -> q <= s ->
  draw Exact (Build_triangle Exact (Real p) (Real q) (Real s) (Real a)) =
  Ok (Build_axes Exact
        (Real 0, Real (s * (12 / 10)))
        (Real 0, Real (s * (12 / 10)))
        [ Arrow Exact (Real 0) (Real 0) (Real p) (Real 0)
            (Real (s * (2 / 100))) (Real (s * (2 / 100))) "r";
          Arrow Exact (Real 0) (Real 0) (Real p) (Real q)
            (Real (s * (2 / 100))) (Real (s * (2 / 100))) "b";
          Arrow Exact (Real p) (Real 0) (Real 0) (Real q)
            (Real (s * (2 / 100))) (Real (s * (2 / 100))) "g";
          Arc Exact (Real (s * (2 / 10) * 2)) (Real (s * (2 / 10) * 2))
            (Real 0) (Real (a * (180 / PI))) "k" ]).
Proof.
  intros Hp Hq. unfold draw. cbn [tri_P tri_Q tri_S tri_angle].
  rewrite py_max3_exact by assumption.
  rewrite np_degrees_exact.
  reflexivity.
Qed.

Lemma update_plot_ok (N : Arith) (self : PowerTriangleSimulation N)
  (t : triangle N) (a : axes N) :
  compute N (active_power self) (power_factor self) = Ok t ->
  draw N t = Ok a ->
  update_plot self =
  Ok (Build_PowerTriangleSimulation N
        (active_power self) (power_factor self)
        a (references N t (power_factor self))).
Proof.
  intros Ht Ha. unfold update_plot. rewrite Ht. cbn [bind].
  rewrite Ha. reflexivity.
Qed.

Lemma update_plot_raises_in_draw (N : Arith)
  (self : PowerTriangleSimulation N) (t : triangle N) (e : exn) :
  compute N (active_power self) (power_factor self) = Ok t ->
  draw N t = Raise e ->
  update_plot self = Raise e.
Proof.
  intros Ht Ha. unfold update_plot. rewrite Ht. cbn [bind].
  rewrite Ha. reflexivity.
Qed.

End ExactOutputs.

(* ================================================================= *)
(** ** The plot of a zero active power *)

Section Plot.

Local Open Scope R_scope.

Variable self : PowerTriangleSimulation Exact.
Variables P_input pf : R.
Hypothesis active_power_is : active_power self = Real P_input.
Hypothesis power_factor_is : power_factor self = Real pf.
Hypothesis active_power_valid : 0 <= P_input.
Hypothesis power_factor_valid : 0 <= pf <= 1.

(** X6. With a zero active power nothing is left to draw: the limits
    asked for are the empty range from 0 to 0 and the three arrows have
    length 0. *)
Theorem zero_input_collapses_plot :
  P_input = 0 ->
  exists self',
    update_plot self = Ok self' /\
    xlim Exact (ax self') = (Real 0, Real 0) /\
    ylim Exact (ax self') = (Real 0, Real 0) /\
    arrow_length "r" (artists Exact (ax self')) = Some 0 /\
    arrow_length "b" (artists Exact (ax self')) = Some 0 /\
    arrow_length "g" (artists Exact (ax self')) = Some 0.
Proof.
  intros Hzero.
  destruct (compute_exact_valid P_input pf
              active_power_valid power_factor_valid)
    as (p & q & s & a & Hrun & Hp & Hq & _ & _ & _ & _ & _ & Hs).
  specialize (Hs Hzero).
  assert (p = 0) by lra. assert (q = 0) by lra. subst p q s.
  rewrite <- active_power_is, <- power_factor_is in Hrun.
  eexists. split.
  { eapply update_plot_ok; [exact Hrun |].
    apply draw_exact; lra. }
  cbn [ax xlim ylim artists].
  assert (H0 : 0 * (12 / 10) = 0) by lra. rewrite H0.
  split; [reflexivity |]. split; [reflexivity |].
  cbn. rewrite Rsqr_0, Rplus_0_r, sqrt_0. repeat split.
Qed.

End Plot.

Lemma zero_input_collapses_plot_witness :
  exists self',
    update_plot
      (Build_PowerTriangleSimulation Exact
         (Real 0) (Real (1 / 2)) (ax (create_widgets Exact)) []) = Ok self' /\
    xlim Exact (ax self') = (Real 0, Real 0) /\
    ylim Exact (ax self') = (Real 0, Real 0) /\
    arrow_length "r" (artists Exact (ax self')) = Some 0%R /\
    arrow_length "b" (artists Exact (ax self')) = Some 0%R /\
    arrow_length "g" (artists Exact (ax self')) = Some 0%R.
Proof.
  apply (zero_input_collapses_plot
           (Build_PowerTriangleSimulation Exact
              (Real 0) (Real (1 / 2)) (ax (create_widgets Exact)) [])
           0 (1 / 2));
    [reflexivity | reflexivity | lra | lra | reflexivity].
Defined.

(* ================================================================= *)
(** ** How the outputs vary with the power factor *)

Section Variation.

Local Open Scope R_scope.

(** X7. For a fixed active power, a higher power factor never gives a
    higher apparent or reactive power. *)
Theorem outputs_decrease_with_power_factor (P_input pf1 pf2 : R) :
  0 <= P_input -> 0 < pf1 -> pf1 <= pf2 -> pf2 <= 1 ->
  exists t1 t2 q1 s1 q2 s2,
    compute Exact (Real P_input) (Real pf1) = Ok t1 /\
    compute Exact (Real P_input) (Real pf2) = Ok t2 /\
    tri_Q t1 = Real q1 /\ tri_S t1 = Real s1 /\
    tri_Q t2 = Real q2 /\ tri_S t2 = Real s2 /\
    q2 <= q1 /\ s2 <= s1.
Proof.
  intros HP H1 H12 H2.
  do 2 eexists.
  exists (P_input * tan (acos pf1)), (P_input / pf1),
         (P_input * tan (acos pf2)), (P_input / pf2).
  split; [apply compute_exact_else; lra |].
  split; [apply compute_exact_else; lra |].
  cbn [tri_Q tri_S].
  do 4 (split; [reflexivity |]).
  assert (Hinv : / pf2 <= / pf1)
    by (apply Rinv_le_contravar; assumption).
  assert (Hinv2 : 0 < / pf2) by (apply Rinv_0_lt_compat; lra).
  split.
  - apply Rmult_le_compat_l; [exact HP |].
    rewrite !tan_acos by lra.
    apply Rmult_le_compat; [apply sqrt_pos | lra | | exact Hinv].
    apply sqrt_le_1_alt. unfold Rsqr. nra.
  - apply Rmult_le_compat_l; assumption.
Qed.

Lemma outputs_decrease_with_power_factor_witness :
  exists t1 t2 q1 s1 q2 s2,
    compute Exact (Real 100) (Real (1 / 2)) = Ok t1 /\
    compute Exact (Real 100) (Real (8 / 10)) = Ok t2 /\
    tri_Q t1 = Real q1 /\ tri_S t1 = Real s1 /\
    tri_Q t2 = Real q2 /\ tri_S t2 = Real s2 /\
    q2 <= q1 /\ s2 <= s1.
Proof.
  apply (outputs_decrease_with_power_factor 100 (1 / 2) (8 / 10)); lra.
Defined.

End Variation.

(* ================================================================= *)
(** ** The form at start-up *)

Section StartUp.

Local Open Scope R_scope.

Lemma tan_acos_08 : tan (acos (8 / 10)) = 3 / 4.
Proof.
  rewrite tan_acos by lra.
  replace (1 - (8 / 10)²) with ((6 / 10)²) by (unfold Rsqr; lra).
  rewrite sqrt_Rsqr by lra. lra.
Qed.

(** X9. [__init__] succeeds and leaves the form showing the default
    triangle: P = 100, S = 125, Q = 75, power factor 0.8, on axes from 0
    to 150, with arrow heads of size 2.5 and an arc of diameter 50. *)
Theorem init_shows_default_triangle :
  init Exact =
  Ok (Build_PowerTriangleSimulation Exact
        (Real 100) (Real (8 / 10))
        (Build_axes Exact (Real 0, Real 150) (Real 0, Real 150)
           [ Arrow Exact (Real 0) (Real 0) (Real 100) (Real 0)
               (Real (5 / 2)) (Real (5 / 2)) "r";
             Arrow Exact (Real 0) (Real 0) (Real 100) (Real 75)
               (Real (5 / 2)) (Real (5 / 2)) "b";
             Arrow Exact (Real 100) (Real 0) (Real 0) (Real 75)
               (Real (5 / 2)) (Real (5 / 2)) "g";
             Arc Exact (Real 50) (Real 50) (Real 0)
               (Real (acos (8 / 10) * (180 / PI))) "k" ])
        [ Build_ref_row Exact "🔴 Active Power (P):" (Real 100) " kW";
          Build_ref_row Exact "🔵 Apparent Power (S):" (Real 125) " kVA";
          Build_ref_row Exact "🟢 Reactive Power (Q):" (Real 75) " kVAr";
          Build_ref_row Exact "Power Factor:" (Real (8 / 10)) "";
          Build_ref_row Exact "Angle φ:"
            (Real (acos (8 / 10) * (180 / PI))) "°" ]).
Proof.
  assert (Hrun : compute Exact (Real 100) (Real (8 / 10)) =
                 Ok (Build_triangle Exact (Real 100) (Real 75) (Real 125)
                       (Real (acos (8 / 10))))).
  { rewrite compute_exact_else by lra. rewrite tan_acos_08.
    do 2 f_equal; f_equal; lra. }
  unfold init.
  rewrite (update_plot_ok Exact (create_widgets Exact) _ _ Hrun
             (draw_exact 100 75 125 (acos (8 / 10))
                ltac:(lra) ltac:(lra))).
  unfold references. cbn [tri_P tri_Q tri_S tri_angle].
  rewrite np_degrees_exact.
  replace (125 * (12 / 10)) with 150 by lra.
  replace (125 * (2 / 100)) with (5 / 2) by lra.
  replace (125 * (2 / 10) * 2) with 50 by lra.
  reflexivity.
Qed.

End StartUp.

(* ================================================================= *)
(** ** The validators and the entry fields *)

Section Entries.

Local Open Scope string_scope.

Lemma nonneg_by_sign (x : f64) :
  SFleb f64_zero x = f64_zero_or_positive x.
Proof.
  rewrite f64_zero_eq.
  destruct x as [s | [|] | | [|] m e]; reflexivity.
Qed.

(** X10. The active-power validator goes by the sign of the parsed
    double: a text is accepted if and only if it is empty or parses to a
    zero of either sign or to a positive value, finite or infinite; so a
    negative zero and a negative number that underflows to it are
    accepted, and NaN and every other negative value are not. *)
Theorem validate_active_power_by_sign (s : string) :
  validate_active_power s = Ok true <->
  s = "" \/ exists x, py_float s = Ok x /\ f64_zero_or_positive x = true.
Proof.
  rewrite validate_active_power_iff.
  split; (intros [Hs | [x [Hx Hle]]]; [now left |]);
    right; exists x; (split; [exact Hx |]).
  - rewrite <- nonneg_by_sign. exact Hle.
  - rewrite nonneg_by_sign. exact Hle.
Qed.

(** X11. Every text the power-factor field accepts, the active-power
    field accepts too. *)
Theorem power_factor_text_is_active_power_text (s : string) :
  validate_power_factor s = Ok true ->
  validate_active_power s = Ok true.
Proof.
  rewrite validate_power_factor_iff, validate_active_power_iff.
  intros [Hs | [x [Hx [H0 _]]]]; [now left |].
  right. exists x. split; assumption.
Qed.

Lemma power_factor_text_is_active_power_text_witness :
  validate_active_power "0.8" = Ok true.
Proof.
  apply (power_factor_text_is_active_power_text "0.8").
  vm_compute. reflexivity.
Defined.

Lemma key_edit_keeps_valid (command : string -> result bool)
  (text new_value : string) :
  command text = Ok true ->
  command (key_edit command text new_value) = Ok true.
Proof.
  intros Hok. unfold key_edit.
  destruct (command new_value) as [[|] | e] eqn:Hnew; assumption.
Qed.

Lemma key_edits_keep_valid (command : string -> result bool)
  (edits : list string) :
  forall text,
    command text = Ok true ->
    command (key_edits command text edits) = Ok true.
Proof.
  induction edits as [| new_value edits IH]; intros text Hok.
  - exact Hok.
  - cbn [key_edits fold_left]. apply IH.
    apply key_edit_keeps_valid. exact Hok.
Qed.

(** X12. Key validation keeps each field valid: starting from a text its
    validator accepts, after any run of edits the active-power field is
    empty or holds a text that parses to a value >= 0, and the
    power-factor field is empty or holds a text that parses to a real
    number in [0, 1]. *)
Theorem entry_texts_stay_valid (text : string) (edits : list string) :
  (validate_active_power text = Ok true ->
   let text' := key_edits validate_active_power text edits in
   text' = "" \/
   exists x, py_float text' = Ok x /\ SFleb f64_zero x = true) /\
  (validate_power_factor text = Ok true ->
   spec_accepts_power_factor
     (key_edits validate_power_factor text edits)).
Proof.
  split.
  - intros Hok text'. apply validate_active_power_iff.
    apply key_edits_keep_valid. exact Hok.
  - intros Hok.
    pose proof (key_edits_keep_valid validate_power_factor edits text Hok)
      as Hvalid.
    apply validate_power_factor_iff in Hvalid.
    destruct Hvalid as [Hs | [x [Hx [H0 H1]]]]; [now left |].
    right. exists x. split; [exact Hx |].
    split; [apply unit_interval_finite; assumption |].
    split; assumption.
Qed.

Lemma entry_texts_stay_valid_witness :
  key_edits validate_active_power "100" ["1000"; "100x"; "-"; ""; "5"]
  = "5" /\
  (key_edits validate_active_power "100" ["1000"; "100x"; "-"; ""; "5"]
   = "" \/
   exists x,
     py_float
       (key_edits validate_active_power "100"
          ["1000"; "100x"; "-"; ""; "5"]) = Ok x /\
     SFleb f64_zero x = true).
Proof.
  split; [vm_compute; reflexivity |].
  apply (proj1 (entry_texts_stay_valid "100"
                  ["1000"; "100x"; "-"; ""; "5"])).
  vm_compute. reflexivity.
Defined.

End Entries.


(* ================================================================= *)
(** ** The triangle identity in the two readings *)

Section Identity.

Local Open Scope R_scope.

Lemma hypotenuse_le_sum (a b : R) :
  0 <= a -> 0 <= b -> sqrt (a² + b²) <= a + b.
Proof.
  intros Ha Hb.
  rewrite <- (sqrt_Rsqr (a + b)) by lra.
  apply sqrt_le_1_alt. unfold Rsqr. nra.
Qed.

Lemma leg_le_hypotenuse (a b : R) : 0 <= b -> b <= sqrt (a² + b²).
Proof.
  intros Hb.
  rewrite <- (sqrt_Rsqr b) at 1 by exact Hb.
  apply sqrt_le_1_alt. unfold Rsqr. nra.
Qed.

Lemma f64_to_R_nonneg (x : f64) :
  SFleb f64_zero x = true -> 0 <= f64_to_R x.
Proof.
  rewrite f64_zero_eq.
  destruct x as [s | s | | [|] m e]; cbn [f64_to_R]; intros Hle;
    try lra; [discriminate Hle |].
  destruct e as [| p | p].
  - left. apply IZR_lt. reflexivity.
  - left. apply IZR_lt. rewrite Z.pow_pos_fold.
    apply Z.mul_pos_pos; [reflexivity |].
    apply Z.pow_pos_nonneg; [reflexivity | apply Pos2Z.is_nonneg].
  - left. apply Rdiv_lt_0_compat; apply IZR_lt; [reflexivity |].
    rewrite Z.pow_pos_fold.
    apply Z.pow_pos_nonneg; [reflexivity | apply Pos2Z.is_nonneg].
Qed.

(** The doubles of the two inputs where the identity is lost. *)
Lemma f64_quotient_1e22 :
  SFdiv prec emax (f64_of_Z 100) (f64_of_decimal 1 (-20)) =
  S754_finite false 4768371582031250 21.
Proof. vm_compute. reflexivity. Qed.

Lemma f64_quotient_1e18 :
  SFdiv prec emax (f64_of_Z 100) (f64_of_decimal 1 (-16)) =
  S754_finite false 7812500000000000 7.
Proof. vm_compute. reflexivity. Qed.

Lemma f64_product_tan_half_pi :
  SFmul prec emax (f64_of_Z 100) (f64_of_decimal 1633123935319537 1) =
  S754_finite false 6379390372341941 8.
Proof. vm_compute. reflexivity. Qed.

Lemma f64_100 : f64_of_Z 100 = S754_finite false 7036874417766400 (-46).
Proof. vm_compute. reflexivity. Qed.

Lemma f64_to_R_100 :
  f64_to_R (S754_finite false 7036874417766400 (-46)) = 100.
Proof.
  cbn [f64_to_R].
  replace (Z.pow_pos 2 46) with 70368744177664%Z by reflexivity.
  lra.
Qed.

Lemma f64_to_R_Q :
  f64_to_R (S754_finite false 6379390372341941 8) = 1633123935319536896.
Proof.
  cbn [f64_to_R].
  replace (6379390372341941 * Z.pow_pos 2 8)%Z
    with 1633123935319536896%Z by reflexivity.
  reflexivity.
Qed.

Lemma f64_to_R_1e22 :
  f64_to_R (S754_finite false 4768371582031250 21)
  = 10000000000000000000000.
Proof.
  cbn [f64_to_R].
  replace (4768371582031250 * Z.pow_pos 2 21)%Z
    with 10000000000000000000000%Z by reflexivity.
  reflexivity.
Qed.

Lemma f64_to_R_1e18 :
  f64_to_R (S754_finite false 7812500000000000 7) = 1000000000000000000.
Proof.
  cbn [f64_to_R].
  replace (7812500000000000 * Z.pow_pos 2 7)%Z
    with 1000000000000000000%Z by reflexivity.
  reflexivity.
Qed.

(** What binary64 computes at a tiny power factor, for any libm that
    rounds [acos] of it to the double nearest pi/2 and has the usual
    [tan] of that double, 1.633123935319537e16. *)
Lemma compute_binary64_tiny_pf (libm_acos libm_tan : f64 -> f64)
  (pf : f64) :
  SFeqb pf (f64_of_Z 0) = false ->
  libm_acos pf = S754_finite false 7074237752028440 (-52) ->
  libm_tan (S754_finite false 7074237752028440 (-52)) =
  f64_of_decimal 1633123935319537 1 ->
  compute (Binary64 libm_acos libm_tan) (f64_of_Z 100) pf =
  Ok (Build_triangle (Binary64 libm_acos libm_tan)
        (S754_finite false 7036874417766400 (-46))
        (S754_finite false 6379390372341941 8)
        (SFdiv prec emax (f64_of_Z 100) pf)
        (S754_finite false 7074237752028440 (-52))).
Proof.
  intros Hnz Hacos Htan.
  rewrite compute_else_branch by exact Hnz.
  cbn [Binary64 num np_arccos np_tan mul div].
  rewrite Hacos, Htan, f64_product_tan_half_pi, f64_100.
  reflexivity.
Qed.

(** C4, the claim fails on the program.  At activePowerInput = 100 and
    powerFactor = 1e-20, both valid, binary64 gives S = 1e22 while
    P = 100 and Q = 1.633e18 are finite: S is more than a thousand times
    sqrt(P^2 + Q^2), because [arccos] of so small a power factor is the
    double nearest pi/2 and its tangent stops at 1.633e16. *)
Lemma pythagorean_lost_at_tiny_power_factor :
  SFleb f64_zero (f64_of_Z 100) = true /\
  SFltb f64_zero (f64_of_decimal 1 (-20)) = true /\
  SFleb (f64_of_decimal 1 (-20)) f64_one = true /\
  forall libm_acos libm_tan : f64 -> f64,
    libm_acos (f64_of_decimal 1 (-20)) =
    S754_finite false 7074237752028440 (-52) ->
    libm_tan (S754_finite false 7074237752028440 (-52)) =
    f64_of_decimal 1633123935319537 1 ->
    exists t,
      compute (Binary64 libm_acos libm_tan)
        (f64_of_Z 100) (f64_of_decimal 1 (-20)) = Ok t /\
      f64_is_finite (tri_P t) = true /\
      f64_is_finite (tri_Q t) = true /\
      f64_is_finite (tri_S t) = true /\
      1000 * f64_hypotenuse libm_acos libm_tan t < f64_to_R (tri_S t).
Proof.
  split; [vm_compute; reflexivity |].
  split; [vm_compute; reflexivity |].
  split; [vm_compute; reflexivity |].
  intros libm_acos libm_tan Hacos Htan.
  eexists. split.
  { apply compute_binary64_tiny_pf;
      [vm_compute; reflexivity | exact Hacos | exact Htan]. }
  unfold f64_hypotenuse. cbn [tri_P tri_Q tri_S].
  rewrite f64_quotient_1e22.
  do 3 (split; [reflexivity |]).
  rewrite f64_to_R_100, f64_to_R_Q, f64_to_R_1e22.
  pose proof (hypotenuse_le_sum 100 1633123935319536896) as Hle.
  lra.
Qed.

(** C9, the claim fails on the program.  At activePowerInput = 100 and
    powerFactor = 1e-16, both valid, binary64 gives S = 1e18 and
    Q = 1.633e18: the hypotenuse S is shorter than the leg Q, and
    sqrt(P^2 + Q^2) is more than one and a half times S. *)
Lemma identities_lost_at_small_power_factor :
  SFleb f64_zero (f64_of_Z 100) = true /\
  SFleb f64_zero (f64_of_decimal 1 (-16)) = true /\
  SFleb (f64_of_decimal 1 (-16)) f64_one = true /\
  forall libm_acos libm_tan : f64 -> f64,
    libm_acos (f64_of_decimal 1 (-16)) =
    S754_finite false 7074237752028440 (-52) ->
    libm_tan (S754_finite false 7074237752028440 (-52)) =
    f64_of_decimal 1633123935319537 1 ->
    exists t,
      compute (Binary64 libm_acos libm_tan)
        (f64_of_Z 100) (f64_of_decimal 1 (-16)) = Ok t /\
      f64_is_finite (tri_P t) = true /\
      f64_is_finite (tri_Q t) = true /\
      f64_is_finite (tri_S t) = true /\
      f64_to_R (tri_S t) < f64_to_R (tri_Q t) /\
      3 / 2 * f64_to_R (tri_S t) < f64_hypotenuse libm_acos libm_tan t.
Proof.
  split; [vm_compute; reflexivity |].
  split; [vm_compute; reflexivity |].
  split; [vm_compute; reflexivity |].
  intros libm_acos libm_tan Hacos Htan.
  eexists. split.
  { apply compute_binary64_tiny_pf;
      [vm_compute; reflexivity | exact Hacos | exact Htan]. }
  unfold f64_hypotenuse. cbn [tri_P tri_Q tri_S].
  rewrite f64_quotient_1e18.
  do 3 (split; [reflexivity |]).
  rewrite f64_to_R_100, f64_to_R_Q, f64_to_R_1e18.
  pose proof (leg_le_hypotenuse 100 1633123935319536896) as Hle.
  split; lra.
Qed.

(** C9, as amended. In exact arithmetic, on the whole valid domain, the
    degenerate case included (activePowerInput >= 0, powerFactor in
    [0, 1]), the outputs satisfy S = sqrt(P^2 + Q^2),
    powerFactor = cos(angle), and angle lies in [0, pi/2]; and in
    binary64 the degenerate case keeps S = sqrt(P^2 + Q^2) exactly, for
    every finite active power >= 0 and either zero as power factor. *)
Theorem compute_triangle_identities (P_input pf : R) :
  0 <= P_input -> 0 <= pf <= 1 ->
  (exists t,
     compute Exact (Real P_input) (Real pf) = Ok t /\
     pythagorean t /\ phase_angle_of pf t) /\
  (forall (libm_acos libm_tan : f64 -> f64) (x zero : f64),
     SFeqb zero (f64_of_Z 0) = true ->
     SFleb f64_zero x = true -> f64_is_finite x = true ->
     exists t,
       compute (Binary64 libm_acos libm_tan) x zero = Ok t /\
       f64_to_R (tri_S t) = f64_hypotenuse libm_acos libm_tan t).
Proof.
  intros HP [Hlo Hhi]. split.
  - destruct (Req_dec_T pf 0) as [-> | Hnz].
    + eexists. split; [apply compute_exact_zero |].
      unfold pythagorean, phase_angle_of.
      cbn [tri_P tri_Q tri_S tri_angle].
      split.
      * rewrite Rsqr_0, Rplus_0_l. symmetry. apply sqrt_Rsqr. exact HP.
      * rewrite cos_PI2. pose proof PI_RGT_0. repeat split; lra.
    + assert (Hpf : 0 < pf <= 1) by lra.
      eexists. split; [apply compute_exact_else; exact Hpf |].
      unfold pythagorean, phase_angle_of.
      cbn [tri_P tri_Q tri_S tri_angle].
      split.
      * rewrite <- hypotenuse_sqr by exact Hpf.
        symmetry. apply sqrt_Rsqr.
        apply Rmult_le_pos; [exact HP |].
        left. apply Rinv_0_lt_compat. lra.
      * split; [rewrite cos_acos; lra | apply acos_le_PI2; lra].
  - intros libm_acos libm_tan x zero Hzero Hx _.
    eexists. split; [apply compute_binary64_zero; exact Hzero |].
    unfold f64_hypotenuse. cbn [tri_P tri_Q tri_S].
    replace (f64_to_R (f64_of_Z 0)) with 0 by reflexivity.
    rewrite Rsqr_0, Rplus_0_l. symmetry.
    apply sqrt_Rsqr. apply f64_to_R_nonneg. exact Hx.
Qed.

Lemma compute_triangle_identities_witness :
  exists t,
    compute Exact (Real 50) (Real 0) = Ok t /\
    pythagorean t /\ phase_angle_of 0 t.
Proof.
  apply (compute_triangle_identities 50 0); lra.
Defined.

End Identity.

(* ================================================================= *)
(** ** [update_plot] in binary64: when it succeeds and when it raises *)

Section Binary64Plot.

Variables libm_acos libm_tan : f64 -> f64.

Let B : Arith := Binary64 libm_acos libm_tan.

Lemma SFltb_irrefl (x : f64) : SFltb x x = false.
Proof.
  unfold SFltb, SFcompare.
  destruct x as [s | [|] | | [|] m e]; try reflexivity;
    rewrite Z.compare_refl, Pos.compare_cont_refl; reflexivity.
Qed.

Lemma f64_12_tenths :
  f64_of_decimal 12 (-1) = S754_finite false 5404319552844595 (-52).
Proof. vm_compute. reflexivity. Qed.

Lemma f64_degrees_half_pi :
  SFmul prec emax (S754_finite false 7074237752028440 (-52))
    (SFdiv prec emax (f64_of_Z 180) f64_pi) = f64_of_Z 90.
Proof. vm_compute. reflexivity. Qed.

(** [max(P, Q, S)] in the degenerate branch, where P is 0 and Q and S are
    the active power: the active power itself, or 0 when it is a zero. *)
Lemma py_max3_degenerate (x : f64) :
  SFleb f64_zero x = true ->
  py_max3 B (f64_of_Z 0) x x =
  if SFltb (S754_zero false) x then x else S754_zero false.
Proof.
  intros Hx. unfold py_max3.
  cbn [B Binary64 num num_gtb].
  change (f64_of_Z 0) with (S754_zero false).
  destruct (SFltb (S754_zero false) x) eqn:Hlt.
  - rewrite SFltb_irrefl. reflexivity.
  - rewrite Hlt. reflexivity.
Qed.

(** With an infinite S and a finite P, [max(P, Q, S)] is +infinity
    whatever Q is. *)
Lemma py_max3_infinite_S (p q : f64) :
  f64_is_finite p = true ->
  py_max3 B p q (S754_infinity false) = S754_infinity false.
Proof.
  intros Hp. unfold py_max3.
  cbn [B Binary64 num num_gtb].
  destruct (SFltb p q) eqn:Hpq.
  - destruct q as [s | [|] | | s m e]; try reflexivity.
    destruct p as [s | s | | s m e]; discriminate.
  - destruct p as [s | s | | s m e]; try discriminate; reflexivity.
Qed.

Lemma draw_raises_on_infinite_limit (t : triangle B) :
  f64_is_finite
    (SFmul prec emax (py_max3 B (tri_P t) (tri_Q t) (tri_S t))
       (f64_of_decimal 12 (-1))) = false ->
  draw B t = Raise ValueError.
Proof.
  intros Hlim. unfold draw, set_lim.
  cbn [B Binary64 num num_is_finite mul of_int of_decimal].
  fold B. rewrite Hlim, andb_false_r. reflexivity.
Qed.

(** X13. In binary64, when the power factor compares equal to 0 (0.0 or
    -0.0) and the active power is >= 0: if 1.2 times the active power is
    finite, [update_plot] succeeds and shows P = 0.0, Q = S = the active
    power as entered and an angle of exactly 90 degrees, in the
    reference frame and on the arc; if it is not (the active power is
    +infinity or so large that the product overflows), [update_plot]
    raises [ValueError] and shows nothing new. *)
Theorem degenerate_panel_binary64 (self : PowerTriangleSimulation B) :
  SFeqb (power_factor self) (f64_of_Z 0) = true ->
  SFleb f64_zero (active_power self) = true ->
  (f64_is_finite
     (SFmul prec emax (active_power self) (f64_of_decimal 12 (-1)))
   = true ->
   exists self',
     update_plot self = Ok self' /\
     row_value B "🔴 Active Power (P):" (ref_frame self')
     = Some (S754_zero false) /\
     row_value B "🔵 Apparent Power (S):" (ref_frame self')
     = Some (active_power self) /\
     row_value B "🟢 Reactive Power (Q):" (ref_frame self')
     = Some (active_power self) /\
     row_value B "Angle φ:" (ref_frame self') = Some (f64_of_Z 90) /\
     arc_theta2 B (artists B (ax self')) = Some (f64_of_Z 90)) /\
  (f64_is_finite
     (SFmul prec emax (active_power self) (f64_of_decimal 12 (-1)))
   = false ->
   update_plot self = Raise ValueError).
Proof.
  intros Hz Hx.
  pose proof (compute_binary64_zero libm_acos libm_tan
                (active_power self) (power_factor self) Hz) as Hrun.
  fold B in Hrun.
  pose proof (py_max3_degenerate (active_power self) Hx) as Hmax.
  split.
  - intros Hfin.
    assert (Hlim : f64_is_finite
                     (SFmul prec emax
                        (py_max3 B (f64_of_Z 0)
                           (active_power self) (active_power self))
                        (f64_of_decimal 12 (-1))) = true).
    { rewrite Hmax.
      destruct (SFltb (S754_zero false) (active_power self));
        [exact Hfin | rewrite f64_12_tenths; reflexivity]. }
    eexists. split.
    { eapply update_plot_ok; [exact Hrun |].
      unfold draw, set_lim, make_arc, np_degrees.
      cbn [tri_P tri_Q tri_S tri_angle
           B Binary64 num num_is_finite mul div of_int of_decimal np_pi].
      fold B. rewrite Hlim, f64_degrees_half_pi.
      reflexivity. }
    cbn [ref_frame ax artists].
    unfold references, np_degrees.
    cbn [tri_P tri_Q tri_S tri_angle
         B Binary64 num of_int np_pi mul div].
    rewrite f64_degrees_half_pi.
    repeat split.
  - intros Hinf.
    apply (update_plot_raises_in_draw B self _ ValueError Hrun).
    apply draw_raises_on_infinite_limit.
    cbn [tri_P tri_Q tri_S]. rewrite Hmax.
    destruct (SFltb (S754_zero false) (active_power self)) eqn:Hlt;
      [exact Hinf |].
    rewrite f64_zero_eq in Hx.
    destruct (active_power self) as [s | [|] | | [|] m e];
      try discriminate; rewrite f64_12_tenths in Hinf; discriminate.
Qed.

(** X14. In binary64, whatever libm computes: when the power factor is
    not zero, the active power is finite and the quotient P / pf
    overflows to +infinity, [update_plot] raises [ValueError]
    (Matplotlib refuses the infinite axis limit) and the reference frame
    is not renewed. *)
Theorem update_plot_raises_on_overflow (self : PowerTriangleSimulation B) :
  SFeqb (power_factor self) (f64_of_Z 0) = false ->
  f64_is_finite (active_power self) = true ->
  SFdiv prec emax (active_power self) (power_factor self)
  = S754_infinity false ->
  update_plot self = Raise ValueError.
Proof.
  intros Hnz Hfin Hover.
  pose proof (compute_else_branch B
                (active_power self) (power_factor self) Hnz) as Hrun.
  apply (update_plot_raises_in_draw B self _ ValueError Hrun).
  apply draw_raises_on_infinite_limit.
  cbn [tri_P tri_Q tri_S]. cbn [B Binary64 div]. rewrite Hover.
  fold B. rewrite py_max3_infinite_S by exact Hfin.
  rewrite f64_12_tenths. reflexivity.
Qed.

End Binary64Plot.

Lemma degenerate_panel_binary64_witness :
  (exists self',
     update_plot
       (Build_PowerTriangleSimulation (Binary64 (fun x => x) (fun x => x))
          (f64_of_Z 50) (S754_zero true)
          (Build_axes (Binary64 (fun x => x) (fun x => x))
             (f64_of_Z 0, f64_of_Z 1) (f64_of_Z 0, f64_of_Z 1) [])
          []) = Ok self' /\
     row_value (Binary64 (fun x => x) (fun x => x))
       "🔴 Active Power (P):" (ref_frame self') = Some (S754_zero false) /\
     row_value (Binary64 (fun x => x) (fun x => x))
       "🔵 Apparent Power (S):" (ref_frame self') = Some (f64_of_Z 50) /\
     row_value (Binary64 (fun x => x) (fun x => x))
       "🟢 Reactive Power (Q):" (ref_frame self') = Some (f64_of_Z 50) /\
     row_value (Binary64 (fun x => x) (fun x => x))
       "Angle φ:" (ref_frame self') = Some (f64_of_Z 90) /\
     arc_theta2 (Binary64 (fun x => x) (fun x => x))
       (artists (Binary64 (fun x => x) (fun x => x)) (ax self'))
     = Some (f64_of_Z 90)) /\
  update_plot
    (Build_PowerTriangleSimulation (Binary64 (fun x => x) (fun x => x))
       (f64_of_decimal 15 307) (f64_of_Z 0)
       (Build_axes (Binary64 (fun x => x) (fun x => x))
          (f64_of_Z 0, f64_of_Z 1) (f64_of_Z 0, f64_of_Z 1) [])
       []) = Raise ValueError.
Proof.
  split.
  - apply (proj1 (degenerate_panel_binary64 (fun x => x) (fun x => x)
             (Build_PowerTriangleSimulation
                (Binary64 (fun x => x) (fun x => x))
                (f64_of_Z 50) (S754_zero true)
                (Build_axes (Binary64 (fun x => x) (fun x => x))
                   (f64_of_Z 0, f64_of_Z 1) (f64_of_Z 0, f64_of_Z 1) [])
                [])
             eq_refl eq_refl)).
    vm_compute. reflexivity.
  - apply (proj2 (degenerate_panel_binary64 (fun x => x) (fun x => x)
             (Build_PowerTriangleSimulation
                (Binary64 (fun x => x) (fun x => x))
                (f64_of_decimal 15 307) (f64_of_Z 0)
                (Build_axes (Binary64 (fun x => x) (fun x => x))
                   (f64_of_Z 0, f64_of_Z 1) (f64_of_Z 0, f64_of_Z 1) [])
                [])
             eq_refl eq_refl)).
    vm_compute. reflexivity.
Defined.

Lemma update_plot_raises_on_overflow_witness :
  update_plot
    (Build_PowerTriangleSimulation (Binary64 (fun x => x) (fun x => x))
       (f64_of_decimal 1 308) (f64_of_decimal 1 (-1))
       (Build_axes (Binary64 (fun x => x) (fun x => x))
          (f64_of_Z 0, f64_of_Z 1) (f64_of_Z 0, f64_of_Z 1) [])
       []) = Raise ValueError.
Proof.
  apply (update_plot_raises_on_overflow (fun x => x) (fun x => x));
    vm_compute; reflexivity.
Defined.
